(** * Sarvam TTS transcoding: a shallow embedding of [server/services/tts_sarvam.js]

    The development follows the source file function by function:
    - [encodeMuLaw]: the per-sample mu-law encoder (JavaScript int32 bit
      operators written out with their wrap-around);
    - [detectAudioFormat]: the magic-number sniffer;
    - [convertToUlaw]: the orchestrator, in a small trace-and-exception monad,
      over the [wavefile] library and the [ffmpeg] subprocess taken as
      parameters;
    - [sarvamTTS]: the provider adapter around them. *)

From Stdlib Require Import ZArith Lia Bool.
From stdpp Require Import base tactics option list numbers strings pretty.

Local Open Scope Z_scope.

(** ** JavaScript 32-bit integer operators *)

Module JS.

(** [ToInt32] of an integral number: reduce modulo 2^32 into the signed range. *)
Definition ToInt32 (x : Z) : Z :=
  let m := x mod 2 ^ 32 in
  if 2 ^ 31 <=? m then m - 2 ^ 32 else m.

(** [x >> n]: arithmetic shift of the int32 value by the low five bits of [n]. *)
Definition shr (x n : Z) : Z := Z.shiftr (ToInt32 x) (Z.land n 31).

(** [x << n] *)
Definition shl (x n : Z) : Z := ToInt32 (Z.shiftl (ToInt32 x) (Z.land n 31)).

(** [x & y], [x | y], [~x] *)
Definition and (x y : Z) : Z := Z.land (ToInt32 x) (ToInt32 y).
Definition or (x y : Z) : Z := Z.lor (ToInt32 x) (ToInt32 y).
Definition not (x : Z) : Z := Z.lnot (ToInt32 x).

End JS.

(** ** [encodeMuLaw] *)

Definition BIAS : Z := 0x84.
Definition CLIP : Z := 32635.

(** The [for (let exp = 0; exp < 8; exp++)] loop with its [break]: [exps] is
    the list of the remaining values of [exp], [exponent] the variable the
    loop assigns. *)
Fixpoint exponent_loop (exps : list Z) (sample exponent : Z) : Z :=
  match exps with
  | [] => exponent
  | exp :: rest =>
      if sample <? JS.shl 1 (exp + 5) then exp
      else exponent_loop rest sample exponent
  end.

(** The [if (sample > 0x7FFF) ... else exponent = 0] chain. [exponent] is the
    value the variable holds on entry ([None] for a declared, unassigned
    variable); every branch assigns. *)
Definition exponent_chain (sample : Z) (exponent : option Z) : option Z :=
  if sample >? 0x7FFF then Some 7
  else if sample >? 0x3FFF then Some 6
  else if sample >? 0x1FFF then Some 5
  else if sample >? 0x0FFF then Some 4
  else if sample >? 0x07FF then Some 3
  else if sample >? 0x03FF then Some 2
  else if sample >? 0x01FF then Some 1
  else Some 0.

(** A local variable read as a number: [undefined] converts to 0 under the
    int32 operators. *)
Definition num (v : option Z) : Z := default 0 v.

(** The statements of [encodeMuLaw] after the exponent is settled. *)
Definition assemble (sign sample : Z) (exponent : option Z) : Z :=
  let mantissa := JS.and (JS.shr sample (num exponent + 3)) 0x0F in
  let ulawbyte := JS.not (JS.or (JS.or sign (JS.shl (num exponent) 4)) mantissa) in
  JS.and ulawbyte 0xFF.

(** Sign extraction, negation, clipping and bias: the value of [sample] when
    the exponent search starts, with the sign. *)
Definition prepare (sample : Z) : Z * Z :=
  let sign := JS.and (JS.shr sample 8) 0x80 in
  let sample := if sign =? 0 then sample else - sample in
  let sample := if sample >? CLIP then CLIP else sample in
  let sample := sample + BIAS in
  (sign, sample).

Definition encodeMuLaw (sample : Z) : Z :=
  let '(sign, sample) := prepare sample in
  let exponent : option Z := Some 7 in
  let exponent := Some (exponent_loop (seqZ 0 8) sample (num exponent)) in
  let exponent := exponent_chain sample exponent in
  assemble sign sample exponent.

(** [encodeMuLaw] with the statement [exponent = 7] and the [for] loop
    deleted: the chain is entered with [exponent] still unassigned. *)
Definition encodeMuLaw_without_loop (sample : Z) : Z :=
  let '(sign, sample) := prepare sample in
  let exponent : option Z := None in
  let exponent := exponent_chain sample exponent in
  assemble sign sample exponent.

(** The encoder as section 4.4 of the specification words it, on mathematical
    integers. *)
Module Spec.

Definition sign_of (sample : Z) : Z := if sample <? 0 then 0x80 else 0.

Definition magnitude (sample : Z) : Z := if sample <? 0 then - sample else sample.

Definition clip (m : Z) : Z := Z.min m 32635.

Definition segment (biased : Z) : Z :=
  if biased >? 0x7FFF then 7
  else if biased >? 0x3FFF then 6
  else if biased >? 0x1FFF then 5
  else if biased >? 0x0FFF then 4
  else if biased >? 0x07FF then 3
  else if biased >? 0x03FF then 2
  else if biased >? 0x01FF then 1
  else 0.

Definition encode (sample : Z) : Z :=
  let sign := sign_of sample in
  let biased := clip (magnitude sample) + 132 in
  let exponent := segment biased in
  let mantissa := Z.land (Z.shiftr biased (exponent + 3)) 0x0F in
  Z.land (Z.lnot (Z.lor (Z.lor sign (Z.shiftl exponent 4)) mantissa)) 0xFF.

End Spec.

(** ** Buffers and [detectAudioFormat] *)

(** A Node [Buffer]: a sequence of bytes, each a number in 0..255. *)
Abbreviation Buffer := (list Z).

(** [buffer.length] *)
Definition buffer_length (buffer : Buffer) : Z := Z.of_nat (length buffer).

(** [buffer[i] === n]: an index out of range reads [undefined] ([None]),
    which is strictly equal to no number. *)
Definition strict_eq (v : option Z) (n : Z) : bool :=
  match v with
  | Some b => b =? n
  | None => false
  end.

Definition detectAudioFormat (buffer : Buffer) : string :=
  if buffer_length buffer <? 4 then "unknown"
  else if strict_eq (buffer !! 0%nat) 0x49 && strict_eq (buffer !! 1%nat) 0x44
          && strict_eq (buffer !! 2%nat) 0x33 then "mp3"
  else if strict_eq (buffer !! 0%nat) 0xFF
          && (JS.and (num (buffer !! 1%nat)) 0xE0 =? 0xE0) then "mp3"
  else if strict_eq (buffer !! 0%nat) 0x52 && strict_eq (buffer !! 1%nat) 0x49
          && strict_eq (buffer !! 2%nat) 0x46 && strict_eq (buffer !! 3%nat) 0x46 then "wav"
  else "s16le".

(** [ulawBuffer[i] = v]: a [Buffer] stores the low eight bits; an index out
    of range is ignored. *)
Definition buffer_set (i : nat) (v : Z) (buffer : Buffer) : Buffer :=
  <[i := v mod 256]> buffer.

(** [Buffer.alloc(length)] *)
Definition buffer_alloc (n : nat) : Buffer := replicate n 0.

(** The encoding loop of [convertToUlaw]:
    [for (let i = 0; i < length; i++) ulawBuffer[i] = encodeMuLaw(samples[i])]. *)
Definition encode_samples (samples : list Z) : Buffer :=
  let length := length samples in
  foldl (fun ulawBuffer i => buffer_set i (encodeMuLaw (num (samples !! i))) ulawBuffer)
        (buffer_alloc length) (seq 0 length).

(** ** The world outside the file

    [wavefile], [child_process.spawn], [node-fetch], [Buffer.from(_, 'base64')]
    and [process.env] are not part of the repository: they are parameters.
    [console] output has no bearing on any result and is left out. *)

(** The message of a thrown [Error]. *)
Definition Error : Type := string.

(** What [wav.getSamples(false, Int16Array)] returns: one [Int16Array], or an
    [Array] of them, one per channel. *)
Inductive Samples :=
| OneArray (samples : list Z)
| PerChannel (channels : list (list Z)).

(** A [WaveFile] object is mutable: each method maps the object's state to its
    state after the call, with the error it threw, if any. *)
Record WaveFileLib := {
  WaveFile : Type;
  wf_new : WaveFile;
  wf_fromBuffer : Buffer -> WaveFile -> WaveFile * option Error;
  wf_fromScratch : Z -> Z -> string -> Buffer -> WaveFile -> WaveFile * option Error;
  wf_sampleRate : WaveFile -> Z;
  wf_toSampleRate : Z -> WaveFile -> WaveFile * option Error;
  wf_getSamples : WaveFile -> Samples + Error
}.

(** How a spawned process ends: the ['close'] event with its exit code ([None]
    for [null]), the chunks read from stdout and the text read from stderr; or
    the ['error'] event. *)
Inductive ProcOutcome :=
| ProcClose (code : option Z) (chunks : list Buffer) (stderrOutput : string)
| ProcError (message : string).

Inductive Json :=
| JsonNull
| JsonObject (audios : option (list string)).

Record Response := {
  resp_ok : bool;
  resp_status : Z;
  resp_statusText : string;
  resp_text : string + Error;
  resp_json : Json + Error
}.

Record Request := {
  req_url : string;
  req_api_subscription_key : string;
  req_inputs : list string;
  req_target_language_code : string;
  req_speaker : string;
  req_model : string;
  req_enable_preprocessing : bool
}.

Record Host := {
  spawn : string -> list string -> Buffer -> ProcOutcome;
  nodeFetch : Request -> Response + Error;
  base64_decode : string -> Buffer;
  SARVAM_API_KEY : option string;
  SARVAM_TTS_LANGUAGE : option string;
  SARVAM_TTS_SPEAKER : option string;
  SARVAM_TTS_FORMAT : option string
}.

(** The calls a run makes to the outside, in order. *)
Inductive Event :=
| WavNew
| WavFromBuffer (buffer : Buffer)
| WavFromScratch (numChannels sampleRate : Z) (bitDepth : string) (samples : Buffer)
| WavToSampleRate (sampleRate : Z)
| WavGetSamples
| Spawn (command : string) (args : list string)
| StdinWrite (buffer : Buffer)
| StdinEnd
| Fetch (request : Request).

Definition is_wavefile_call (ev : Event) : bool :=
  match ev with
  | WavNew | WavFromBuffer _ | WavFromScratch _ _ _ _ | WavToSampleRate _ | WavGetSamples => true
  | _ => false
  end.

(** A settled promise. *)
Inductive Settled (A : Type) :=
| Resolved (value : A)
| Rejected (reason : Error).
Arguments Resolved {A} value.
Arguments Rejected {A} reason.

(** How a block of statements completes. *)
Inductive Completion (A : Type) :=
| Normal (value : A)
| Throw (error : Error).
Arguments Normal {A} value.
Arguments Throw {A} error.

(** JavaScript values as far as [options.skipConversion] is tested. *)
Inductive JsValue :=
| JsUndefined
| JsNull
| JsBool (b : bool)
| JsNumber (n : Z)
| JsNaN
| JsString (s : string)
| JsObject.

Definition truthy (v : JsValue) : bool :=
  match v with
  | JsUndefined | JsNull | JsNaN => false
  | JsBool b => b
  | JsNumber n => negb (n =? 0)
  | JsString s => negb (String.eqb s EmptyString)
  | JsObject => true
  end.

(** Truthiness of an optional string ([undefined] and the empty string are falsy), and
    [a || b || c] over such values. *)
Definition truthy_string (v : option string) : bool :=
  match v with
  | Some s => negb (String.eqb s EmptyString)
  | None => false
  end.

Definition or_else (a : option string) (b : option string) : option string :=
  if truthy_string a then a else b.

(** [s.includes(sub)] *)
Definition includes (s sub : string) : bool :=
  match String.index 0 sub s with
  | Some _ => true
  | None => false
  end.

(** [String(code)] inside a template literal. *)
Definition show_code (code : option Z) : string :=
  match code with
  | Some n => pretty n
  | None => "null"
  end.

(** ** Statements with effects *)

Section Service.

Context (lib : WaveFileLib) (host : Host).

(** The state a run threads: the calls made so far and the [WaveFile]
    object [wav]. *)
Record World := {
  trace : list Event;
  wav : WaveFile lib
}.

Definition world0 : World := {| trace := []; wav := wf_new lib |}.

Definition M (A : Type) : Type := World -> World * Completion A.

#[local] Instance M_ret : MRet M := fun A a w => (w, Normal a).

#[local] Instance M_bind : MBind M := fun A B f m w =>
  match m w with
  | (w', Normal a) => f a w'
  | (w', Throw e) => (w', Throw e)
  end.

#[local] Instance M_fmap : FMap M := fun A B f m w =>
  match m w with
  | (w', Normal a) => (w', Normal (f a))
  | (w', Throw e) => (w', Throw e)
  end.

(** [throw new Error(message)] *)
Definition throw {A} (message : Error) : M A := fun w => (w, Throw message).

(** [try { body } catch (error) { handler }] *)
Definition try_catch {A} (body : M A) (handler : Error -> M A) : M A := fun w =>
  match body w with
  | (w', Normal a) => (w', Normal a)
  | (w', Throw e) => handler e w'
  end.

Definition emit (ev : Event) : M unit := fun w =>
  ({| trace := trace w ++ [ev]; wav := wav w |}, Normal tt).

(** A method call on [wav] that mutates the object and may throw. *)
Definition wav_call (ev : Event) (method : WaveFile lib -> WaveFile lib * option Error)
  : M unit := fun w =>
  let '(obj, thrown) := method (wav w) in
  let w' := {| trace := trace w ++ [ev]; wav := obj |} in
  match thrown with
  | None => (w', Normal tt)
  | Some e => (w', Throw e)
  end.

Definition new_WaveFile : M unit := fun w =>
  ({| trace := trace w ++ [WavNew]; wav := wf_new lib |}, Normal tt).

Definition fromBuffer (buffer : Buffer) : M unit :=
  wav_call (WavFromBuffer buffer) (wf_fromBuffer lib buffer).

Definition fromScratch (numChannels sampleRate : Z) (bitDepth : string) (samples : Buffer)
  : M unit :=
  wav_call (WavFromScratch numChannels sampleRate bitDepth samples)
           (wf_fromScratch lib numChannels sampleRate bitDepth samples).

Definition toSampleRate (sampleRate : Z) : M unit :=
  wav_call (WavToSampleRate sampleRate) (wf_toSampleRate lib sampleRate).

(** [wav.fmt.sampleRate] *)
Definition fmt_sampleRate : M Z := fun w => (w, Normal (wf_sampleRate lib (wav w))).

Definition getSamples : M Samples := fun w =>
  let w' := {| trace := trace w ++ [WavGetSamples]; wav := wav w |} in
  match wf_getSamples lib (wav w) with
  | inl samples => (w', Normal samples)
  | inr e => (w', Throw e)
  end.

(** [await p] *)
Definition await {A} (p : World -> World * Settled A) : M A := fun w =>
  match p w with
  | (w', Resolved a) => (w', Normal a)
  | (w', Rejected e) => (w', Throw e)
  end.

(** An already settled promise, as a promise-returning call. *)
Definition settled {A} (r : A + Error) : World -> World * Settled A := fun w =>
  match r with
  | inl a => (w, Resolved a)
  | inr e => (w, Rejected e)
  end.

(** ** [convertToUlaw] *)

(** What the body of [convertToUlaw] hands to [return]: a buffer, or the
    promise built around the ffmpeg process (given by how it settles). *)
Inductive Returned :=
| ReturnBuffer (ulawBuffer : Buffer)
| ReturnPromise (promise : Settled Buffer).

(** Lines 157-171: the [WaveFile] is created and loaded. *)
Definition load_wav (audioBuffer : Buffer) (sourceFormat : string) : M unit :=
  new_WaveFile ;;
  if String.eqb sourceFormat "wav" then fromBuffer audioBuffer
  else try_catch (fromBuffer audioBuffer)
                 (fun e => fromScratch 1 24000 "16" audioBuffer).

(** Lines 189-192: with several channels, the first one is used. An
    [Int16Array] is no [Array]; an [Array] of channels is replaced by its
    first element when it has one. *)
Definition first_channel (samples : Samples) : list Z :=
  match samples with
  | OneArray s => s
  | PerChannel [] => []
  | PerChannel (c :: _) => c
  end.

(** Lines 157-204: the body of the inner [try]; its value is the buffer
    that [return ulawBuffer] returns. *)
Definition wavefile_path (audioBuffer : Buffer) (sourceFormat : string) : M Buffer :=
  load_wav audioBuffer sourceFormat ;;
  sampleRate ← fmt_sampleRate ;
  (if negb (sampleRate =? 8000) then toSampleRate 8000 else mret tt) ;;
  samples ← getSamples ;
  let samples := first_channel samples in
  mret (encode_samples samples).

(** Lines 220-237 *)
Definition ffmpegArgs (sourceFormat : string) : list string :=
  if String.eqb sourceFormat "s16le" then
    ["-f"; "s16le"; "-ar"; "24000"; "-ac"; "1"; "-i"; "pipe:0";
     "-ar"; "8000"; "-ac"; "1"; "-acodec"; "pcm_mulaw"; "-f"; "mulaw";
     "-loglevel"; "error"; "pipe:1"]
  else
    ["-i"; "pipe:0";
     "-ar"; "8000"; "-ac"; "1"; "-acodec"; "pcm_mulaw"; "-f"; "mulaw";
     "-af"; "volume=2.0";
     "-loglevel"; "error"; "pipe:1"].

(** Lines 247-263: how the promise settles, on the ['close'] event
    (resolved with the concatenated chunks on exit code 0, rejected
    otherwise) or on the ['error'] event. *)
Definition on_exit (outcome : ProcOutcome) : Settled Buffer :=
  match outcome with
  | ProcClose code chunks stderrOutput =>
      if strict_eq code 0 then Resolved (concat chunks)
      else Rejected ("ffmpeg exited with code " +:+ show_code code +:+ ": "
                     +:+ stderrOutput)
  | ProcError message => Rejected ("ffmpeg process error: " +:+ message)
  end.

(** Lines 219-268: the promise around the ffmpeg process. The executor
    spawns the process and writes the input. *)
Definition ffmpeg_promise (audioBuffer : Buffer) (sourceFormat : string)
  : M (Settled Buffer) :=
  let args := ffmpegArgs sourceFormat in
  emit (Spawn "ffmpeg" args) ;;
  emit (StdinWrite audioBuffer) ;;
  emit StdinEnd ;;
  mret (on_exit (spawn host "ffmpeg" args audioBuffer)).

(** The body of [convertToUlaw]. [return new Promise(...)] completes the
    outer [try] normally, with the promise as its value: the [catch] of
    lines 270-273 sees only what is thrown while the body runs. *)
Definition convertToUlaw_body (audioBuffer : Buffer) (sourceFormat : string) : M Returned :=
  try_catch
    (early ← (if String.eqb sourceFormat "wav" || String.eqb sourceFormat "unknown"
              then try_catch (Some <$> wavefile_path audioBuffer sourceFormat)
                             (fun waveError => mret None)
              else mret None) ;
     match early with
     | Some ulawBuffer => mret (ReturnBuffer ulawBuffer)
     | None => ReturnPromise <$> ffmpeg_promise audioBuffer sourceFormat
     end)
    (fun error => throw ("Audio format conversion failed: " +:+ error)).

(** The promise an [async] function returns: resolved with the returned
    value, following a returned promise, rejected with what the body threw. *)
Definition convertToUlaw (audioBuffer : Buffer) (sourceFormat : string)
  : World -> World * Settled Buffer := fun w =>
  match convertToUlaw_body audioBuffer sourceFormat w with
  | (w', Normal (ReturnBuffer b)) => (w', Resolved b)
  | (w', Normal (ReturnPromise p)) => (w', p)
  | (w', Throw e) => (w', Rejected e)
  end.

(** ** [sarvamTTS] *)

Record Options := {
  language : option string;
  speaker : option string;
  format : option string;
  skipConversion : JsValue
}.

(** [jsonResponse.audios && jsonResponse.audios[0]]; reading a property of
    [null] throws. *)
Definition first_audio (jsonResponse : Json) : M (option string) :=
  match jsonResponse with
  | JsonNull => throw "Cannot read properties of null (reading 'audios')"
  | JsonObject None => mret None
  | JsonObject (Some audios) => mret (audios !! 0%nat)
  end.

(** Lines 100-115: the [catch] of [sarvamTTS]. *)
Definition sarvamTTS_catch {A} (error : Error) : M A :=
  if includes error "SARVAM_API_KEY" then
    throw "Sarvam API key is missing. Please set SARVAM_API_KEY in your environment variables."
  else if includes error "ENOTFOUND" || includes error "ETIMEDOUT" then
    throw "Network error: Unable to reach Sarvam API. Please check your internet connection."
  else if includes error "401" then
    throw "Authentication failed: Invalid Sarvam API key."
  else if includes error "429" then
    throw "Rate limit exceeded: Too many requests to Sarvam API."
  else throw error.

(** Lines 28-58: the request sent to the provider. *)
Definition request_of (text : string) (options : Options) : Request :=
  let language :=
    default "en-IN" (or_else (or_else (language options) (SARVAM_TTS_LANGUAGE host))
                             (Some "en-IN")) in
  let speaker :=
    default "anushka" (or_else (or_else (speaker options) (SARVAM_TTS_SPEAKER host))
                               (Some "anushka")) in
  {| req_url := "https://api.sarvam.ai/text-to-speech";
     req_api_subscription_key := default EmptyString (SARVAM_API_KEY host);
     req_inputs := [text];
     req_target_language_code := language;
     req_speaker := speaker;
     req_model := "bulbul:v2";
     req_enable_preprocessing := true |}.

Definition sarvamTTS_body (text : string) (options : Options) : M Buffer :=
  try_catch
    (let apiKey := SARVAM_API_KEY host in
     (if negb (truthy_string apiKey)
      then throw "SARVAM_API_KEY not configured in environment variables"
      else mret tt) ;;
     let request := request_of text options in
     emit (Fetch request) ;;
     response ← await (settled (nodeFetch host request)) ;
     (if negb (resp_ok response)
      then errorText ← await (settled (resp_text response)) ;
           throw ("Sarvam API error: " +:+ pretty (resp_status response) +:+ " - "
                  +:+ resp_statusText response)
      else mret tt) ;;
     jsonResponse ← await (settled (resp_json response)) ;
     base64Audio ← first_audio jsonResponse ;
     (if negb (truthy_string base64Audio)
      then throw "No audio data in Sarvam response"
      else mret tt) ;;
     let audioBuffer := base64_decode host (default EmptyString base64Audio) in
     let actualFormat := detectAudioFormat audioBuffer in
     if truthy (skipConversion options) then mret audioBuffer
     else
       ulawBuffer ← await (convertToUlaw audioBuffer actualFormat) ;
       mret ulawBuffer)
    sarvamTTS_catch.

Definition sarvamTTS (text : string) (options : Options)
  : World -> World * Settled Buffer := fun w =>
  match sarvamTTS_body text options w with
  | (w', Normal b) => (w', Resolved b)
  | (w', Throw e) => (w', Rejected e)
  end.

End Service.

Arguments trace {lib} _.
Arguments wav {lib} _.
Arguments language _ : clear implicits.
Arguments speaker _ : clear implicits.
Arguments format _ : clear implicits.
Arguments skipConversion _ : clear implicits.

(** The calls a run adds to the trace it starts from. *)
Definition calls_from {lib X} (w : World lib) (out : World lib * X) : list Event :=
  drop (length (trace w)) (trace out.1).

(** The external path in closed form: the three calls it makes and the way
    the promise settles. *)
Definition ffmpeg_calls (audioBuffer : Buffer) (sourceFormat : string) : list Event :=
  [Spawn "ffmpeg" (ffmpegArgs sourceFormat); StdinWrite audioBuffer; StdinEnd].

Definition ffmpeg_settles (host : Host) (audioBuffer : Buffer) (sourceFormat : string)
  : Settled Buffer :=
  on_exit (spawn host "ffmpeg" (ffmpegArgs sourceFormat) audioBuffer).

Definition log {lib} (calls : list Event) (w : World lib) : World lib :=
  {| trace := trace w ++ calls; wav := wav w |}.

(** All of [calls] are calls to [wavefile]. *)
Definition wavefile_calls (calls : list Event) : Prop :=
  Forall (fun ev => is_wavefile_call ev = true) calls.

(** ** The claims on the orchestrator, as predicates on a run *)

(** The run loads the whole payload as headerless PCM: one channel, 24000 Hz,
    16 bits. *)
Definition falls_back_to_raw_pcm {lib} (host : Host) (audioBuffer : Buffer)
    (sourceFormat : string) (w : World lib) : Prop :=
  WavFromScratch 1 24000 "16" audioBuffer
    ∈ calls_from w (convertToUlaw lib host audioBuffer sourceFormat w).

(** The parsing of the container throws. *)
Definition parsing_throws (lib : WaveFileLib) (audioBuffer : Buffer) : Prop :=
  (wf_fromBuffer lib audioBuffer (wf_new lib)).2 <> None.

(** The run takes the in-process path: it creates a [WaveFile]. *)
Definition takes_wavefile_path {lib} (host : Host) (audioBuffer : Buffer)
    (sourceFormat : string) (w : World lib) : Prop :=
  WavNew ∈ calls_from w (convertToUlaw lib host audioBuffer sourceFormat w).

(** ** Reading the ffmpeg argument list

    ffmpeg applies an option to the next file named on the command line: the
    options after the input ([-i file]) are those of the output. *)

Fixpoint output_options (args : list string) : list string :=
  match args with
  | [] => []
  | a :: rest =>
      if String.eqb a "-i" then tail rest else output_options rest
  end.

(** The option [key] is given the value [value]. *)
Fixpoint has_option (key value : string) (args : list string) : bool :=
  match args with
  | [] => false
  | a :: rest =>
      (String.eqb a key && bool_decide (head rest = Some value))
      || has_option key value rest
  end.

Definition forces_8000_mono_mulaw (args : list string) : bool :=
  let out := output_options args in
  has_option "-ar" "8000" out && has_option "-ac" "1" out
  && has_option "-acodec" "pcm_mulaw" out && has_option "-f" "mulaw" out.

Definition applies_gain_2x (args : list string) : bool :=
  has_option "-af" "volume=2.0" (output_options args).

(** Every process the run spawns is ffmpeg, forced to 8000 Hz, mono, mu-law,
    with the gain given by [gain]. *)
Definition every_invocation {lib} (gain : bool) (host : Host) (audioBuffer : Buffer)
    (sourceFormat : string) (w : World lib) : Prop :=
  forall command args,
    Spawn command args ∈ calls_from w (convertToUlaw lib host audioBuffer sourceFormat w) ->
    command = "ffmpeg" /\ forces_8000_mono_mulaw args = true /\ applies_gain_2x args = gain.

(** A rejection reason under the umbrella of line 272. *)
Definition under_umbrella (reason : Error) : bool :=
  String.prefix "Audio format conversion failed" reason.

(** ** The sniffer as the specification words it *)

Module SnifferSpec.

(** [buffer] starts with the bytes [signature]. *)
Definition starts_with (signature : list Z) (buffer : Buffer) : bool :=
  bool_decide (take (length signature) buffer = signature).

(** Byte 0 is [0xFF] and byte 1 has its top three bits set. *)
Definition frame_sync (buffer : Buffer) : bool :=
  match buffer with
  | b0 :: b1 :: _ =>
      bool_decide (b0 = 0xFF) && Z.testbit b1 7 && Z.testbit b1 6 && Z.testbit b1 5
  | _ => false
  end.

Definition detect (buffer : Buffer) : string :=
  if bool_decide (length buffer < 4)%nat then "unknown"
  else if starts_with [0x49; 0x44; 0x33] buffer || frame_sync buffer then "mp3"
  else if starts_with [0x52; 0x49; 0x46; 0x46] buffer then "wav"
  else "s16le".

End SnifferSpec.

(** ** A small instance of the outside world

    A stand-in for the libraries, to run the functions above on concrete
    inputs: a reader of canonical 44-byte-header mono PCM WAV files, a
    nearest-sample rate converter, a base64 decoder, and a host whose
    process and HTTP outcomes are given. *)

Module Toy.

Record wave := { rate : Z; channels : list (list Z) }.

Definition empty : wave := {| rate := 0; channels := [] |}.

(** Signed 16-bit little-endian samples. *)
Fixpoint s16le (bytes : list Z) : list Z :=
  match bytes with
  | lo :: hi :: rest =>
      let v := lo + 256 * hi in
      (if 32768 <=? v then v - 65536 else v) :: s16le rest
  | _ => []
  end.

Definition u32le (bytes : list Z) : Z :=
  foldr (fun b acc => b + 256 * acc) 0 (take 4 bytes).

Definition fromBuffer (buffer : Buffer) (w : wave) : wave * option Error :=
  if bool_decide (take 4 buffer = [0x52; 0x49; 0x46; 0x46])
     && bool_decide (take 4 (drop 8 buffer) = [0x57; 0x41; 0x56; 0x45])
     && bool_decide (44 <= length buffer)%nat
  then ({| rate := u32le (drop 24 buffer); channels := [s16le (drop 44 buffer)] |}, None)
  else (w, Some "Not a supported format.").

Definition fromScratch (numChannels sampleRate : Z) (bitDepth : string) (samples : Buffer)
    (w : wave) : wave * option Error :=
  if String.eqb bitDepth "16"
  then ({| rate := sampleRate; channels := [samples] |}, None)
  else (w, Some "Invalid bit depth.").

Definition pick (r target : Z) (c : list Z) : list Z :=
  (fun i => default 0 (c !! Z.to_nat (Z.of_nat i * r / target)))
    <$> seq 0 (Z.to_nat (Z.of_nat (length c) * target / r)).

Definition toSampleRate (sampleRate : Z) (w : wave) : wave * option Error :=
  if (rate w <=? 0) || (sampleRate <=? 0) then (w, Some "Invalid sample rate.")
  else ({| rate := sampleRate; channels := pick (rate w) sampleRate <$> channels w |}, None).

Definition getSamples (w : wave) : Samples + Error :=
  match channels w with
  | [c] => inl (OneArray c)
  | cs => inl (PerChannel cs)
  end.

Definition lib : WaveFileLib := {|
  WaveFile := wave;
  wf_new := empty;
  wf_fromBuffer := fromBuffer;
  wf_fromScratch := fromScratch;
  wf_sampleRate := rate;
  wf_toSampleRate := toSampleRate;
  wf_getSamples := getSamples
|}.

(** Base64: the value of a digit, and the bytes of a string of digits. *)
Definition digit (c : Ascii.ascii) : option Z :=
  let n := Z.of_N (Ascii.N_of_ascii c) in
  if (65 <=? n) && (n <=? 90) then Some (n - 65)
  else if (97 <=? n) && (n <=? 122) then Some (n - 71)
  else if (48 <=? n) && (n <=? 57) then Some (n + 4)
  else if n =? 43 then Some 62
  else if n =? 47 then Some 63
  else None.

Fixpoint group (digits : list Z) : list Z :=
  match digits with
  | a :: b :: c :: d :: rest =>
      let v := ((a * 64 + b) * 64 + c) * 64 + d in
      v / 65536 :: v / 256 mod 256 :: v mod 256 :: group rest
  | [a; b; c] =>
      let v := (a * 64 + b) * 64 + c in
      [v / 1024; v / 4 mod 256]
  | [a; b] => [(a * 64 + b) / 16]
  | _ => []
  end.

Definition base64 (s : string) : Buffer :=
  group (omap digit (String.list_ascii_of_string s)).

Definition host (apiKey : option string) (fetched : Response + Error)
    (process : ProcOutcome) : Host := {|
  spawn := fun _ _ _ => process;
  nodeFetch := fun _ => fetched;
  base64_decode := base64;
  SARVAM_API_KEY := apiKey;
  SARVAM_TTS_LANGUAGE := None;
  SARVAM_TTS_SPEAKER := None;
  SARVAM_TTS_FORMAT := None
|}.

(** A provider answer carrying one base64 audio. *)
Definition answer (audio : string) : Response + Error :=
  inl {| resp_ok := true; resp_status := 200; resp_statusText := "OK";
         resp_text := inl EmptyString;
         resp_json := inl (JsonObject (Some [audio])) |}.

(** ffmpeg ends with exit code 1. *)
Definition ffmpeg_fails : ProcOutcome :=
  ProcClose (Some 1) [] "pipe:0: Invalid data found when processing input".

(** ffmpeg ends with exit code 0 after writing two chunks. *)
Definition ffmpeg_succeeds : ProcOutcome :=
  ProcClose (Some 0) [[0xFF; 0xFF]; [0x7F]] EmptyString.

(** A canonical WAV file: 8000 Hz, mono, 16-bit, the samples 0, 1000, -1000. *)
Definition wav_8000 : Buffer :=
  [0x52; 0x49; 0x46; 0x46; 42; 0; 0; 0; 0x57; 0x41; 0x56; 0x45;
   0x66; 0x6D; 0x74; 0x20; 16; 0; 0; 0; 1; 0; 1; 0;
   0x40; 0x1F; 0; 0; 0x80; 0x3E; 0; 0; 2; 0; 16; 0;
   0x64; 0x61; 0x74; 0x61; 6; 0; 0; 0;
   0; 0; 0xE8; 0x03; 0x18; 0xFC].

(** [RIFF] followed by two bytes: sniffed as wav, not parseable. *)
Definition riff_stub : Buffer := [0x52; 0x49; 0x46; 0x46; 0; 0].

(** An ID3 tag start: sniffed as mp3. *)
Definition id3_stub : Buffer := [0x49; 0x44; 0x33; 0x04; 0; 0].

(** No signature: sniffed as s16le. *)
Definition raw_stub : Buffer := [0x10; 0x00; 0xF0; 0xFF].

End Toy.

(** * Properties *)

(** ** Values on concrete inputs *)

Example encodeMuLaw_1000 : encodeMuLaw 1000 = 0xDC.
Proof. reflexivity. Qed.

Example encodeMuLaw_clip_mirror : encodeMuLaw 32635 = 0x90 /\ encodeMuLaw (-32635) = 0x10.
Proof. split; reflexivity. Qed.

Example encodeMuLaw_extremes : encodeMuLaw 32767 = 0x90 /\ encodeMuLaw (-32768) = 0x10.
Proof. split; reflexivity. Qed.

(** On the biased magnitude of silence the search loop stops at 3, the chain
    assigns 0. *)
Example loop_and_chain_on_132 :
  exponent_loop (seqZ 0 8) 132 7 = 3 /\ exponent_chain 132 (Some 3) = Some 0.
Proof. split; reflexivity. Qed.

Example detectAudioFormat_samples :
  detectAudioFormat Toy.wav_8000 = "wav" /\ detectAudioFormat Toy.id3_stub = "mp3"
  /\ detectAudioFormat [0xFF; 0xFB; 0x90; 0x00] = "mp3"
  /\ detectAudioFormat [0xFF; 0x1F; 0x90; 0x00] = "s16le"
  /\ detectAudioFormat [0x49; 0x44; 0x33] = "unknown".
Proof. repeat split; reflexivity. Qed.

Example base64_RIFF : Toy.base64 "UklGRg==" = [0x52; 0x49; 0x46; 0x46].
Proof. reflexivity. Qed.

(** An unparseable two-byte buffer, sniffed as unknown: loaded from scratch
    as two samples at 24000 Hz and resampled. *)
Example unknown_buffer_run :
  convertToUlaw Toy.lib (Toy.host None (inr "unused") Toy.ffmpeg_fails) [0x10; 0x20]
                (detectAudioFormat [0x10; 0x20]) (world0 Toy.lib)
  = ({| trace := [WavNew; WavFromBuffer [0x10; 0x20];
                  WavFromScratch 1 24000 "16" [0x10; 0x20];
                  WavToSampleRate 8000; WavGetSamples];
        wav := {| Toy.rate := 8000; Toy.channels := [[]] |} : WaveFile Toy.lib |},
     Resolved []).
Proof. reflexivity. Qed.

(** ** The int32 operators on small operands *)

Lemma ToInt32_small x : - 2 ^ 31 <= x < 2 ^ 31 -> JS.ToInt32 x = x.
Proof.
  intros Hx. unfold JS.ToInt32. cbv zeta.
  destruct (Z.leb_spec (2 ^ 31) (x mod 2 ^ 32)) as [H | H];
    Z.div_mod_to_equations; lia.
Qed.

Lemma ToInt32_testbit x i : 0 <= i < 32 -> Z.testbit (JS.ToInt32 x) i = Z.testbit x i.
Proof.
  intros Hi. unfold JS.ToInt32. cbv zeta.
  destruct (2 ^ 31 <=? x mod 2 ^ 32).
  - rewrite <- (Z.mod_pow2_bits_low (x mod 2 ^ 32 - 2 ^ 32) 32 i) by lia.
    replace (x mod 2 ^ 32 - 2 ^ 32) with (x mod 2 ^ 32 + (-1) * 2 ^ 32) by lia.
    rewrite Z.mod_add, Z.mod_mod by lia.
    apply Z.mod_pow2_bits_low. lia.
  - apply Z.mod_pow2_bits_low. lia.
Qed.

Lemma land_255_byte x : 0 <= Z.land x 0xFF < 256.
Proof.
  change 0xFF with (Z.ones 8). rewrite Z.land_ones by lia.
  apply Z.mod_pos_bound. lia.
Qed.

Lemma land_15_nibble x : 0 <= Z.land x 0x0F < 16.
Proof.
  change 0x0F with (Z.ones 4). rewrite Z.land_ones by lia.
  apply Z.mod_pos_bound. lia.
Qed.

Lemma shiftr_bounds x n : 0 <= n -> 0 <= x -> 0 <= Z.shiftr x n <= x.
Proof.
  intros Hn Hx. rewrite Z.shiftr_div_pow2 by lia. split.
  - apply Z.div_pos; lia.
  - apply Z.div_le_upper_bound; nia.
Qed.

(** A property checked on every integer of a range holds on the range. *)
Lemma Z_range_check (P : Z -> bool) (lo len : Z) :
  forallb P (seqZ lo len) = true -> forall x, lo <= x < lo + len -> P x = true.
Proof.
  intros Hall x Hx. rewrite forallb_forall in Hall. apply Hall.
  apply list_elem_of_In, elem_of_seqZ. lia.
Qed.

(** The sign mask of line 287 on a 16-bit sample. *)
Lemma sign_mask sample :
  -32768 <= sample <= 32767 ->
  JS.and (JS.shr sample 8) 0x80 = if sample <? 0 then 0x80 else 0.
Proof.
  intros Hs. unfold JS.and, JS.shr.
  rewrite (ToInt32_small sample) by lia.
  change (Z.land 8 31) with 8. change (JS.ToInt32 0x80) with 128.
  rewrite Z.shiftr_div_pow2 by lia.
  assert (Hq : -128 <= sample / 2 ^ 8 < -128 + 256) by (Z.div_mod_to_equations; lia).
  rewrite ToInt32_small by lia.
  replace (sample <? 0) with (sample / 2 ^ 8 <? 0)
    by (destruct (Z.ltb_spec (sample / 2 ^ 8) 0), (Z.ltb_spec sample 0);
        [reflexivity | | | reflexivity]; Z.div_mod_to_equations; lia).
  apply Z.eqb_eq.
  apply (Z_range_check (fun q => Z.land q 128 =? (if q <? 0 then 128 else 0)) (-128) 256);
    [vm_compute; reflexivity | exact Hq].
Qed.

(** The clipped, biased magnitude on a 16-bit sample. *)
Lemma prepare_16bit sample :
  -32768 <= sample <= 32767 ->
  prepare sample = (Spec.sign_of sample, Spec.clip (Spec.magnitude sample) + 132).
Proof.
  intros Hs. unfold prepare. cbv zeta. rewrite sign_mask by assumption.
  unfold Spec.sign_of, Spec.clip, Spec.magnitude, CLIP, BIAS.
  destruct (Z.ltb_spec sample 0); cbn [Z.eqb]; f_equal; f_equal;
    match goal with |- context [?a >? ?b] => destruct (Z.gtb_spec a b) end; lia.
Qed.

Lemma exponent_chain_segment sample exponent :
  exponent_chain sample exponent = Some (Spec.segment sample).
Proof.
  unfold exponent_chain, Spec.segment.
  repeat match goal with |- context [?a >? ?b] => destruct (a >? b) end; reflexivity.
Qed.

Lemma segment_range biased : 0 <= Spec.segment biased <= 7.
Proof.
  unfold Spec.segment.
  repeat match goal with |- context [?a >? ?b] => destruct (a >? b) end; lia.
Qed.

Lemma lor_byte a b : 0 <= a < 256 -> 0 <= b < 256 -> 0 <= Z.lor a b < 256.
Proof.
  intros Ha Hb. split; [apply Z.lor_nonneg; lia |].
  destruct (Z.eq_dec (Z.lor a b) 0) as [-> | Hnz]; [lia |].
  assert (Hpos : 0 < Z.lor a b) by (pose proof (proj2 (Z.lor_nonneg a b)); lia).
  apply (Z.log2_lt_pow2 _ 8 Hpos).
  rewrite Z.log2_lor by lia.
  assert (Hlog : forall c, 0 <= c < 256 -> Z.log2 c < 8).
  { intros c Hc. destruct (Z.eq_dec c 0) as [-> | Hc0]; [reflexivity |].
    apply Z.log2_lt_pow2; lia. }
  pose proof (Hlog a Ha). pose proof (Hlog b Hb). lia.
Qed.

(** With a sign of 0 or 0x80, a non-negative int32 magnitude and a segment
    number, the int32 operators of the last three statements compute on the
    integers. *)
Lemma assemble_small sign sample exponent :
  sign = 0 \/ sign = 0x80 ->
  0 <= sample < 2 ^ 31 ->
  0 <= exponent <= 7 ->
  assemble sign sample (Some exponent) =
  Z.land (Z.lnot (Z.lor (Z.lor sign (Z.shiftl exponent 4))
                        (Z.land (Z.shiftr sample (exponent + 3)) 0x0F))) 0xFF.
Proof.
  intros Hsign Hsample Hexp. unfold assemble. cbv zeta.
  change (num (Some exponent)) with exponent.
  unfold JS.and, JS.or, JS.not, JS.shr, JS.shl.
  change (Z.land 4 31) with 4.
  replace (Z.land (exponent + 3) 31) with (exponent + 3).
  2:{ change 31 with (Z.ones 5). rewrite Z.land_ones by lia.
      symmetry. apply Z.mod_small. lia. }
  pose proof (shiftr_bounds sample (exponent + 3) ltac:(lia) ltac:(lia)) as Hshift.
  pose proof (land_15_nibble (Z.shiftr sample (exponent + 3))) as Hmant.
  assert (Hshl : Z.shiftl exponent 4 = exponent * 16) by (rewrite Z.shiftl_mul_pow2; lia).
  assert (Hhigh : 0 <= Z.lor sign (Z.shiftl exponent 4) < 256)
    by (apply lor_byte; lia).
  assert (Hall : 0 <= Z.lor (Z.lor sign (Z.shiftl exponent 4))
                            (Z.land (Z.shiftr sample (exponent + 3)) 0x0F) < 256)
    by (apply lor_byte; lia).
  assert (Hnot : forall y, Z.lnot y = - y - 1) by (intros y; unfold Z.lnot; lia).
  rewrite (ToInt32_small sample), (ToInt32_small exponent) by lia.
  rewrite (ToInt32_small (Z.shiftr _ _)), (ToInt32_small 0x0F) by lia.
  rewrite (ToInt32_small sign), !(ToInt32_small (Z.shiftl _ _)) by lia.
  rewrite (ToInt32_small (Z.lor sign _)), (ToInt32_small (Z.land _ _)) by lia.
  rewrite (ToInt32_small (Z.lor _ _)) by lia.
  rewrite (ToInt32_small (Z.lnot _)) by (rewrite Hnot; lia).
  rewrite (ToInt32_small 0xFF) by lia.
  reflexivity.
Qed.

(** C1. On every signed 16-bit sample [encodeMuLaw] computes the encoder of
    section 4.4: sign [0x80] for a negative sample, which is negated;
    magnitude clipped to 32635; bias 132 added; exponent by the thresholds
    [> 0x7FFF -> 7], ..., [> 0x01FF -> 1], else 0; mantissa
    [(biased >> (exponent + 3)) & 0x0F]; output the complement of
    [sign | exponent << 4 | mantissa], masked to eight bits. *)
Theorem encodeMuLaw_implements_section_4_4 (sample : Z) :
  -32768 <= sample <= 32767 ->
  encodeMuLaw sample = Spec.encode sample.
Proof.
  intros Hs. unfold encodeMuLaw, Spec.encode. cbv zeta.
  rewrite prepare_16bit by assumption.
  rewrite exponent_chain_segment.
  apply assemble_small.
  - unfold Spec.sign_of. destruct (sample <? 0); auto.
  - unfold Spec.clip, Spec.magnitude. destruct (Z.ltb_spec sample 0); lia.
  - apply segment_range.
Qed.

Lemma encodeMuLaw_implements_section_4_4_witness :
  -32768 <= -32768 <= 32767 /\ encodeMuLaw (-32768) = Spec.encode (-32768).
Proof.
  split; [lia | apply encodeMuLaw_implements_section_4_4; lia].
Defined.

(** ** The encoding loop *)

Lemma encodeMuLaw_byte sample : 0 <= encodeMuLaw sample < 256.
Proof.
  unfold encodeMuLaw. destruct (prepare sample) as [sign s].
  unfold assemble, JS.and. cbv zeta.
  change (JS.ToInt32 0xFF) with 0xFF. apply land_255_byte.
Qed.

(** Writing [g i] at every index below [n], in order, into a buffer of at
    least [n] bytes. *)
Lemma write_loop (g : nat -> Z) (n : nat) (buffer : Buffer) :
  (n <= length buffer)%nat ->
  foldl (fun b i => <[i := g i]> b) buffer (seq 0 n) = (g <$> seq 0 n) ++ drop n buffer.
Proof.
  induction n as [| n IH]; intros Hn.
  - reflexivity.
  - rewrite seq_S, foldl_app, fmap_app. cbn [foldl fmap list_fmap Nat.add].
    rewrite IH by lia.
    destruct (lookup_lt_is_Some_2 buffer n ltac:(lia)) as [x Hx].
    rewrite (drop_S _ _ _ Hx).
    rewrite insert_app_r_alt by (rewrite length_fmap, length_seq; lia).
    rewrite length_fmap, length_seq, Nat.sub_diag. cbn [list_insert].
    rewrite <- app_assoc. reflexivity.
Qed.

(** The loop of lines 198-201 encodes each sample on its own. *)
Lemma encode_samples_map (samples : list Z) :
  encode_samples samples = encodeMuLaw <$> samples.
Proof.
  unfold encode_samples, buffer_set, buffer_alloc. cbv zeta.
  rewrite (write_loop (fun i => encodeMuLaw (num (samples !! i)) mod 256))
    by (rewrite length_replicate; lia).
  rewrite drop_ge, app_nil_r by (rewrite length_replicate; lia).
  apply list_eq. intros i.
  rewrite !list_lookup_fmap.
  destruct (samples !! i) as [x |] eqn:Hi.
  - rewrite (lookup_seq_lt _ _ _ (lookup_lt_Some _ _ _ Hi)). cbn.
    rewrite Hi. cbn. f_equal. apply Z.mod_small, encodeMuLaw_byte.
  - rewrite lookup_seq_ge by (apply lookup_ge_None; exact Hi). reflexivity.
Qed.

(** C9. The encoder maps the sample 0 to the byte [0xFF], and a stream of
    zero samples, of any length, to that many bytes [0xFF]. *)
Theorem silence_encodes_to_0xFF :
  encodeMuLaw 0 = 0xFF /\ forall n : nat, encode_samples (replicate n 0) = replicate n 0xFF.
Proof.
  split; [reflexivity |].
  intros n. rewrite encode_samples_map, fmap_replicate. reflexivity.
Qed.

(** ** The exponent search *)

(** Every branch of the threshold chain assigns: the value [exponent] holds
    on entry does not reach the exit. *)
Lemma exponent_chain_overwrites sample before before' :
  exponent_chain sample before = exponent_chain sample before'.
Proof. reflexivity. Qed.

(** C10. The assignment [exponent = 7] and the search loop of lines 296-302
    are dead: [encodeMuLaw] equals, on every input, the function without
    them. *)
Theorem exponent_loop_is_dead_code (sample : Z) :
  encodeMuLaw sample = encodeMuLaw_without_loop sample.
Proof.
  unfold encodeMuLaw, encodeMuLaw_without_loop.
  destruct (prepare sample) as [sign biased].
  rewrite (exponent_chain_overwrites biased _ None). reflexivity.
Qed.

(** ** The sniffer *)

(** The mask test of line 130 reads the top three bits of the byte. *)
Lemma frame_sync_mask b :
  (JS.and b 0xE0 =? 0xE0) = Z.testbit b 7 && Z.testbit b 6 && Z.testbit b 5.
Proof.
  unfold JS.and. change (JS.ToInt32 0xE0) with (Z.land (Z.ones 8) 0xE0).
  rewrite Z.land_assoc, Z.land_ones by lia.
  rewrite <- (ToInt32_testbit b 7), <- (ToInt32_testbit b 6), <- (ToInt32_testbit b 5) by lia.
  rewrite <- (Z.mod_pow2_bits_low (JS.ToInt32 b) 8 7), <- (Z.mod_pow2_bits_low (JS.ToInt32 b) 8 6),
    <- (Z.mod_pow2_bits_low (JS.ToInt32 b) 8 5) by lia.
  pose proof (Z.mod_pos_bound (JS.ToInt32 b) (2 ^ 8) ltac:(lia)) as Hq.
  apply Bool.eqb_prop.
  apply (Z_range_check
           (fun q => Bool.eqb (Z.land q 0xE0 =? 0xE0)
                              (Z.testbit q 7 && Z.testbit q 6 && Z.testbit q 5)) 0 256);
    [vm_compute; reflexivity | lia].
Qed.

Lemma starts_with_3 a b c b0 b1 b2 rest :
  SnifferSpec.starts_with [a; b; c] (b0 :: b1 :: b2 :: rest)
  = (b0 =? a) && (b1 =? b) && (b2 =? c).
Proof.
  unfold SnifferSpec.starts_with. cbn [length take].
  destruct (Z.eqb_spec b0 a), (Z.eqb_spec b1 b), (Z.eqb_spec b2 c); subst; cbn [andb];
    first [ apply bool_decide_eq_true; reflexivity
          | apply bool_decide_eq_false; congruence ].
Qed.

Lemma starts_with_4 a b c d b0 b1 b2 b3 rest :
  SnifferSpec.starts_with [a; b; c; d] (b0 :: b1 :: b2 :: b3 :: rest)
  = (b0 =? a) && (b1 =? b) && (b2 =? c) && (b3 =? d).
Proof.
  unfold SnifferSpec.starts_with. cbn [length take].
  destruct (Z.eqb_spec b0 a), (Z.eqb_spec b1 b), (Z.eqb_spec b2 c), (Z.eqb_spec b3 d);
    subst; cbn [andb];
    first [ apply bool_decide_eq_true; reflexivity
          | apply bool_decide_eq_false; congruence ].
Qed.

(** C2. [detectAudioFormat] is total (it has a value on every buffer) and
    classifies in this order: shorter than four bytes, unknown; starting with
    49 44 33, or with 0xFF and a byte with its top three bits set, mp3;
    starting with 52 49 46 46, wav; anything else, s16le. *)
Theorem detectAudioFormat_classifies (buffer : Buffer) :
  detectAudioFormat buffer = SnifferSpec.detect buffer.
Proof.
  destruct buffer as [| b0 [| b1 [| b2 [| b3 rest]]]]; try reflexivity.
  unfold detectAudioFormat, SnifferSpec.detect, buffer_length.
  replace (Z.of_nat (length (b0 :: b1 :: b2 :: b3 :: rest)) <? 4) with false
    by (symmetry; apply Z.ltb_ge; cbn [length]; lia).
  rewrite bool_decide_eq_false_2 by (cbn [length]; lia).
  rewrite starts_with_3, starts_with_4.
  cbn [lookup list_lookup strict_eq SnifferSpec.frame_sync].
  change (num (Some b1)) with b1. rewrite frame_sync_mask.
  replace (bool_decide (b0 = 0xFF)) with (b0 =? 0xFF)
    by (destruct (Z.eqb_spec b0 0xFF); symmetry;
        [apply bool_decide_eq_true | apply bool_decide_eq_false]; assumption).
  destruct ((b0 =? 0x49) && (b1 =? 0x44) && (b2 =? 0x33)); [reflexivity |].
  cbn [orb].
  rewrite <- !andb_assoc.
  destruct ((b0 =? 0xFF) && (Z.testbit b1 7 && (Z.testbit b1 6 && Z.testbit b1 5)));
    reflexivity.
Qed.

(** ** The orchestrator, path by path *)

Lemma calls_from_log {lib X} (w : World lib) (calls : list Event) (x : X) :
  calls_from w (log calls w, x) = calls.
Proof. unfold calls_from, log. cbn. apply drop_app_length. Qed.

Lemma log_log {lib} (w : World lib) (c1 c2 : list Event) :
  log c2 (log c1 w) = log (c1 ++ c2) w.
Proof. unfold log. cbn. rewrite app_assoc. reflexivity. Qed.

Lemma ffmpeg_promise_run lib host audioBuffer sourceFormat (w : World lib) :
  ffmpeg_promise lib host audioBuffer sourceFormat w
  = (log (ffmpeg_calls audioBuffer sourceFormat) w,
     Normal (ffmpeg_settles host audioBuffer sourceFormat)).
Proof.
  unfold ffmpeg_promise, ffmpeg_settles, ffmpeg_calls, log, emit, mbind, mret, M_bind, M_ret.
  cbn. rewrite <- !app_assoc. reflexivity.
Qed.

(** The two branches of line 155. The [catch] of line 206 absorbs whatever
    the in-process path throws, and the external path follows. *)
Lemma convertToUlaw_paths lib host audioBuffer sourceFormat (w : World lib) :
  convertToUlaw lib host audioBuffer sourceFormat w =
  if String.eqb sourceFormat "wav" || String.eqb sourceFormat "unknown" then
    match wavefile_path lib audioBuffer sourceFormat w with
    | (w', Normal ulawBuffer) => (w', Resolved ulawBuffer)
    | (w', Throw waveError) =>
        (log (ffmpeg_calls audioBuffer sourceFormat) w',
         ffmpeg_settles host audioBuffer sourceFormat)
    end
  else (log (ffmpeg_calls audioBuffer sourceFormat) w,
        ffmpeg_settles host audioBuffer sourceFormat).
Proof.
  unfold convertToUlaw, convertToUlaw_body, try_catch.
  unfold mbind at 1. unfold M_bind at 1.
  destruct (String.eqb sourceFormat "wav" || String.eqb sourceFormat "unknown").
  - unfold fmap at 1. unfold M_fmap at 1.
    destruct (wavefile_path lib audioBuffer sourceFormat w) as [w' [ulawBuffer | waveError]].
    + reflexivity.
    + unfold mret, M_ret, fmap, M_fmap. rewrite ffmpeg_promise_run. reflexivity.
  - unfold mret, M_ret, fmap, M_fmap. rewrite ffmpeg_promise_run. reflexivity.
Qed.

(** Unfolding the statements of the in-process path. *)
Ltac unfold_statements :=
  unfold load_wav, try_catch, throw, new_WaveFile, fromBuffer, fromScratch, toSampleRate,
    fmt_sampleRate, getSamples, wav_call, mbind, mret, M_bind, M_ret;
  cbn [trace wav fst snd String.eqb Ascii.eqb Bool.eqb].

(** The creation and loading of the [WaveFile], case by case. *)
Lemma load_wav_wav lib audioBuffer (w : World lib) :
  load_wav lib audioBuffer "wav" w =
  let '(obj, thrown) := wf_fromBuffer lib audioBuffer (wf_new lib) in
  ({| trace := trace w ++ [WavNew; WavFromBuffer audioBuffer]; wav := obj |},
   match thrown with None => Normal tt | Some e => Throw e end).
Proof.
  unfold_statements.
  destruct (wf_fromBuffer lib audioBuffer (wf_new lib)) as [obj [e |]];
    rewrite <- app_assoc; reflexivity.
Qed.

Lemma load_wav_unknown lib audioBuffer (w : World lib) :
  load_wav lib audioBuffer "unknown" w =
  match wf_fromBuffer lib audioBuffer (wf_new lib) with
  | (obj, None) =>
      ({| trace := trace w ++ [WavNew; WavFromBuffer audioBuffer]; wav := obj |}, Normal tt)
  | (obj, Some e) =>
      let '(obj', thrown) := wf_fromScratch lib 1 24000 "16" audioBuffer obj in
      ({| trace := trace w ++ [WavNew; WavFromBuffer audioBuffer;
                               WavFromScratch 1 24000 "16" audioBuffer];
          wav := obj' |},
       match thrown with None => Normal tt | Some e' => Throw e' end)
  end.
Proof.
  unfold_statements.
  destruct (wf_fromBuffer lib audioBuffer (wf_new lib)) as [obj [e |]]; cbn [trace wav].
  - destruct (wf_fromScratch lib 1 24000 "16" audioBuffer obj) as [obj' [e' |]];
      rewrite <- !app_assoc; reflexivity.
  - rewrite <- app_assoc. reflexivity.
Qed.

(** What follows the loading: resampling when the rate is not 8000,
    extraction, channel choice, encoding. *)
Lemma wavefile_path_after_load lib audioBuffer sourceFormat (w : World lib) :
  wavefile_path lib audioBuffer sourceFormat w =
  match load_wav lib audioBuffer sourceFormat w with
  | (w1, Throw e) => (w1, Throw e)
  | (w1, Normal _) =>
      if wf_sampleRate lib (wav w1) =? 8000 then
        match wf_getSamples lib (wav w1) with
        | inl samples =>
            (log [WavGetSamples] w1, Normal (encode_samples (first_channel samples)))
        | inr e => (log [WavGetSamples] w1, Throw e)
        end
      else
        let '(obj, thrown) := wf_toSampleRate lib 8000 (wav w1) in
        let w2 := {| trace := trace w1 ++ [WavToSampleRate 8000]; wav := obj |} in
        match thrown with
        | Some e => (w2, Throw e)
        | None =>
            match wf_getSamples lib obj with
            | inl samples =>
                (log [WavGetSamples] w2, Normal (encode_samples (first_channel samples)))
            | inr e => (log [WavGetSamples] w2, Throw e)
            end
        end
  end.
Proof.
  unfold wavefile_path. unfold mbind at 1. unfold M_bind at 1.
  destruct (load_wav lib audioBuffer sourceFormat w) as [w1 [[] | e]]; [| reflexivity].
  unfold toSampleRate, fmt_sampleRate, getSamples, wav_call, log, mbind, mret, M_bind, M_ret.
  destruct (wf_sampleRate lib (wav w1) =? 8000); cbn [negb trace wav].
  - destruct (wf_getSamples lib (wav w1)); reflexivity.
  - destruct (wf_toSampleRate lib 8000 (wav w1)) as [obj [e |]]; cbn [trace wav];
      [reflexivity |].
    destruct (wf_getSamples lib obj); reflexivity.
Qed.

(** C8. When the loaded stream is already at 8000 Hz, [toSampleRate] is not
    called: the run ends with [getSamples] on the object as it was loaded,
    and the encoder receives exactly the samples of that object. *)
Theorem no_resampling_at_8000 lib host audioBuffer sourceFormat (w w1 : World lib) samples :
  sourceFormat = "wav" \/ sourceFormat = "unknown" ->
  load_wav lib audioBuffer sourceFormat w = (w1, Normal tt) ->
  wf_sampleRate lib (wav w1) = 8000 ->
  wf_getSamples lib (wav w1) = inl samples ->
  convertToUlaw lib host audioBuffer sourceFormat w
  = (log [WavGetSamples] w1, Resolved (encodeMuLaw <$> first_channel samples)).
Proof.
  intros Hfmt Hload Hrate Hsamples.
  rewrite convertToUlaw_paths.
  replace (String.eqb sourceFormat "wav" || String.eqb sourceFormat "unknown") with true
    by (destruct Hfmt; subst; reflexivity).
  rewrite wavefile_path_after_load, Hload, Hrate, Hsamples. cbn [Z.eqb Pos.eqb].
  rewrite encode_samples_map. reflexivity.
Qed.

Lemma no_resampling_at_8000_witness :
  convertToUlaw Toy.lib (Toy.host None (inr "unused") Toy.ffmpeg_fails) Toy.wav_8000 "wav"
                (world0 Toy.lib)
  = (log [WavGetSamples]
         {| trace := [WavNew; WavFromBuffer Toy.wav_8000];
            wav := {| Toy.rate := 8000; Toy.channels := [[0; 1000; -1000]] |} : WaveFile Toy.lib |},
     Resolved (encodeMuLaw <$> [0; 1000; -1000])).
Proof.
  apply (no_resampling_at_8000 Toy.lib _ Toy.wav_8000 "wav" (world0 Toy.lib) _
           (OneArray [0; 1000; -1000])).
  - left. reflexivity.
  - reflexivity.
  - reflexivity.
  - reflexivity.
Defined.

(** C4. A buffer sniffed as mp3 goes to ffmpeg: the run makes the three calls
    of the external path, none of them to [wavefile], and settles as the
    ffmpeg promise does. *)
Theorem mp3_goes_to_ffmpeg lib host audioBuffer (w : World lib) :
  detectAudioFormat audioBuffer = "mp3" ->
  let run := convertToUlaw lib host audioBuffer (detectAudioFormat audioBuffer) w in
  calls_from w run = [Spawn "ffmpeg" (ffmpegArgs "mp3"); StdinWrite audioBuffer; StdinEnd]
  /\ Forall (fun ev => is_wavefile_call ev = false) (calls_from w run)
  /\ run.2 = ffmpeg_settles host audioBuffer "mp3".
Proof.
  intros ->. cbv zeta. rewrite convertToUlaw_paths. cbn [String.eqb Ascii.eqb Bool.eqb orb].
  rewrite calls_from_log. unfold ffmpeg_calls.
  repeat split. repeat constructor.
Qed.

Lemma mp3_goes_to_ffmpeg_witness :
  let host := Toy.host None (inr "unused") Toy.ffmpeg_succeeds in
  let run := convertToUlaw Toy.lib host Toy.id3_stub (detectAudioFormat Toy.id3_stub)
                           (world0 Toy.lib) in
  calls_from (world0 Toy.lib) run
    = [Spawn "ffmpeg" (ffmpegArgs "mp3"); StdinWrite Toy.id3_stub; StdinEnd]
  /\ Forall (fun ev => is_wavefile_call ev = false) (calls_from (world0 Toy.lib) run)
  /\ run.2 = ffmpeg_settles host Toy.id3_stub "mp3".
Proof.
  intros host.
  apply (mp3_goes_to_ffmpeg Toy.lib host Toy.id3_stub (world0 Toy.lib)).
  reflexivity.
Defined.

(** ** The raw PCM fallback *)

Lemma calls_from_trace {lib X} (w w' : World lib) (x : X) (calls : list Event) :
  trace w' = trace w ++ calls -> calls_from w (w', x) = calls.
Proof. intros H. unfold calls_from. cbn [fst]. rewrite H. apply drop_app_length. Qed.

(** Reads the calls of a run off its final trace and looks the wanted call up. *)
Ltac trace_step :=
  erewrite calls_from_trace;
  [| cbn [trace log wav]; rewrite <- ?app_assoc; reflexivity];
  cbn [app]; repeat first [apply list_elem_of_here | apply list_elem_of_further].

(** C5, as stated, fails: a buffer sniffed as wav whose container does not
    parse takes the in-process path and is not loaded as raw PCM. *)
Lemma wav_parse_failure_has_no_raw_pcm_fallback :
  let host := Toy.host None (inr "unused") Toy.ffmpeg_fails in
  let sourceFormat := detectAudioFormat Toy.riff_stub in
  takes_wavefile_path host Toy.riff_stub sourceFormat (world0 Toy.lib)
  /\ parsing_throws Toy.lib Toy.riff_stub
  /\ ~ falls_back_to_raw_pcm host Toy.riff_stub sourceFormat (world0 Toy.lib).
Proof.
  cbv zeta. unfold takes_wavefile_path, parsing_throws, falls_back_to_raw_pcm.
  split; [| split].
  - vm_compute. left.
  - vm_compute. discriminate.
  - intros Hin. vm_compute in Hin.
    repeat (apply elem_of_cons in Hin as [Heq | Hin]; [discriminate Heq |]).
    apply elem_of_nil in Hin. exact Hin.
Qed.

(** C5, amended. When the parsing throws: with source format unknown the
    object is loaded from scratch with one channel, 24000 Hz, 16 bits and the
    whole buffer, and the run goes on from there; with source format wav
    nothing is loaded from scratch, and the run hands the buffer to ffmpeg. *)
Theorem raw_pcm_fallback_for_unknown_only lib host audioBuffer (w : World lib) obj e :
  wf_fromBuffer lib audioBuffer (wf_new lib) = (obj, Some e) ->
  load_wav lib audioBuffer "unknown" w
    = (let '(obj', thrown) := wf_fromScratch lib 1 24000 "16" audioBuffer obj in
       ({| trace := trace w ++ [WavNew; WavFromBuffer audioBuffer;
                                WavFromScratch 1 24000 "16" audioBuffer];
           wav := obj' |},
        match thrown with None => Normal tt | Some e' => Throw e' end))
  /\ falls_back_to_raw_pcm host audioBuffer "unknown" w
  /\ calls_from w (convertToUlaw lib host audioBuffer "wav" w)
     = [WavNew; WavFromBuffer audioBuffer] ++ ffmpeg_calls audioBuffer "wav".
Proof.
  intros Hparse. split; [| split].
  - rewrite load_wav_unknown, Hparse. reflexivity.
  - unfold falls_back_to_raw_pcm.
    rewrite convertToUlaw_paths. cbn [String.eqb Ascii.eqb Bool.eqb orb].
    rewrite wavefile_path_after_load, load_wav_unknown, Hparse.
    destruct (wf_fromScratch lib 1 24000 "16" audioBuffer obj) as [obj' [e' |]].
    + trace_step.
    + destruct (_ =? _).
      * destruct (wf_getSamples lib _); trace_step.
      * destruct (wf_toSampleRate lib 8000 _) as [obj2 [e2 |]]; cbn [trace wav];
          [| destruct (wf_getSamples lib _)]; trace_step.
  - rewrite convertToUlaw_paths. cbn [String.eqb Ascii.eqb Bool.eqb orb].
    rewrite wavefile_path_after_load, load_wav_wav, Hparse.
    erewrite calls_from_trace; [reflexivity |].
    cbn [trace log wav]. rewrite <- app_assoc. reflexivity.
Qed.

Lemma raw_pcm_fallback_for_unknown_only_witness :
  let host := Toy.host None (inr "unused") Toy.ffmpeg_fails in
  falls_back_to_raw_pcm host [0x10; 0x20] (detectAudioFormat [0x10; 0x20]) (world0 Toy.lib).
Proof.
  intros host.
  apply (raw_pcm_fallback_for_unknown_only Toy.lib host [0x10; 0x20] (world0 Toy.lib)
           Toy.empty "Not a supported format.").
  reflexivity.
Defined.

(** ** The calls of a run *)

Ltac trace_shape :=
  eexists; split;
  [ cbn [trace log wav fst]; rewrite <- ?app_assoc; reflexivity
  | repeat constructor ].

Lemma load_wav_trace lib audioBuffer sourceFormat (w : World lib) :
  exists calls,
    trace (load_wav lib audioBuffer sourceFormat w).1 = trace w ++ calls
    /\ wavefile_calls calls.
Proof.
  unfold_statements. destruct (String.eqb sourceFormat "wav"); cbn [trace wav].
  - destruct (wf_fromBuffer lib audioBuffer (wf_new lib)) as [obj [e |]]; trace_shape.
  - destruct (wf_fromBuffer lib audioBuffer (wf_new lib)) as [obj [e |]]; cbn [trace wav].
    + destruct (wf_fromScratch lib 1 24000 "16" audioBuffer obj) as [obj' [e' |]]; trace_shape.
    + trace_shape.
Qed.

Lemma wavefile_path_trace lib audioBuffer sourceFormat (w : World lib) :
  exists calls,
    trace (wavefile_path lib audioBuffer sourceFormat w).1 = trace w ++ calls
    /\ wavefile_calls calls.
Proof.
  rewrite wavefile_path_after_load.
  destruct (load_wav_trace lib audioBuffer sourceFormat w) as (calls & Htrace & Hcalls).
  destruct (load_wav lib audioBuffer sourceFormat w) as [w1 [[] | e]]; cbn [fst] in Htrace.
  - assert (Hmore : forall more, wavefile_calls more -> wavefile_calls (calls ++ more))
      by (intros more Hm; apply Forall_app; split; assumption).
    destruct (_ =? _).
    + destruct (wf_getSamples lib _); (exists (calls ++ [WavGetSamples]); split;
        [cbn [trace log fst]; rewrite Htrace, <- app_assoc; reflexivity
        | apply Hmore; repeat constructor]).
    + destruct (wf_toSampleRate lib 8000 _) as [obj [e |]]; cbn [trace wav];
        [| destruct (wf_getSamples lib _)].
      * exists (calls ++ [WavToSampleRate 8000]). split;
          [cbn [trace fst]; rewrite Htrace, <- app_assoc; reflexivity
          | apply Hmore; repeat constructor].
      * exists (calls ++ [WavToSampleRate 8000; WavGetSamples]). split;
          [cbn [trace log fst]; rewrite Htrace, <- !app_assoc; reflexivity
          | apply Hmore; repeat constructor].
      * exists (calls ++ [WavToSampleRate 8000; WavGetSamples]). split;
          [cbn [trace log fst]; rewrite Htrace, <- !app_assoc; reflexivity
          | apply Hmore; repeat constructor].
  - exists calls. split; assumption.
Qed.

(** A run makes calls to [wavefile], and then either returns or makes the
    three calls of the external path. *)
Lemma convertToUlaw_calls lib host audioBuffer sourceFormat (w : World lib) :
  exists calls,
    wavefile_calls calls
    /\ (calls_from w (convertToUlaw lib host audioBuffer sourceFormat w) = calls
        \/ calls_from w (convertToUlaw lib host audioBuffer sourceFormat w)
           = calls ++ ffmpeg_calls audioBuffer sourceFormat).
Proof.
  rewrite convertToUlaw_paths.
  destruct (String.eqb sourceFormat "wav" || String.eqb sourceFormat "unknown").
  - destruct (wavefile_path_trace lib audioBuffer sourceFormat w) as (calls & Htrace & Hcalls).
    exists calls. split; [assumption |].
    destruct (wavefile_path lib audioBuffer sourceFormat w) as [w' [b | e]];
      cbn [fst] in Htrace.
    + left. apply calls_from_trace. assumption.
    + right. apply calls_from_trace. cbn [trace log]. rewrite Htrace, app_assoc. reflexivity.
  - exists []. split; [constructor |]. right. apply calls_from_log.
Qed.

(** The output options of both argument lists, and the gain of each. *)
Lemma ffmpegArgs_output sourceFormat :
  forces_8000_mono_mulaw (ffmpegArgs sourceFormat) = true
  /\ applies_gain_2x (ffmpegArgs sourceFormat) = negb (String.eqb sourceFormat "s16le").
Proof.
  unfold ffmpegArgs. destruct (String.eqb sourceFormat "s16le"); split; reflexivity.
Qed.

(** C6, as stated, fails: the invocation for a buffer sniffed as s16le has no
    gain. *)
Lemma raw_pcm_invocation_has_no_gain :
  let host := Toy.host None (inr "unused") Toy.ffmpeg_succeeds in
  ~ every_invocation true host Toy.raw_stub (detectAudioFormat Toy.raw_stub) (world0 Toy.lib).
Proof.
  intros host Hall.
  destruct (Hall "ffmpeg" (ffmpegArgs "s16le")) as (_ & _ & Hgain).
  - vm_compute. left.
  - vm_compute in Hgain. discriminate Hgain.
Qed.

(** C6, amended. Every process a run spawns is ffmpeg with output options
    forcing 8000 Hz, one channel and mu-law; the gain [volume=2.0] is among
    them exactly when the source format is not s16le. *)
Theorem every_invocation_forces_ulaw_8000 lib host audioBuffer sourceFormat (w : World lib)
    command args :
  Spawn command args ∈ calls_from w (convertToUlaw lib host audioBuffer sourceFormat w) ->
  command = "ffmpeg"
  /\ forces_8000_mono_mulaw args = true
  /\ applies_gain_2x args = negb (String.eqb sourceFormat "s16le").
Proof.
  intros Hin.
  destruct (convertToUlaw_calls lib host audioBuffer sourceFormat w)
    as (calls & Hcalls & [Heq | Heq]); rewrite Heq in Hin.
  - unfold wavefile_calls in Hcalls. rewrite Forall_forall in Hcalls.
    apply Hcalls in Hin. discriminate Hin.
  - apply elem_of_app in Hin as [Hin | Hin].
    + unfold wavefile_calls in Hcalls. rewrite Forall_forall in Hcalls.
      apply Hcalls in Hin. discriminate Hin.
    + unfold ffmpeg_calls in Hin.
      apply elem_of_cons in Hin as [Hev | Hin].
      * injection Hev as -> ->. split; [reflexivity | apply ffmpegArgs_output].
      * apply elem_of_cons in Hin as [Hev | Hin]; [discriminate Hev |].
        apply elem_of_cons in Hin as [Hev | Hin]; [discriminate Hev |].
        apply elem_of_nil in Hin. destruct Hin.
Qed.

Lemma every_invocation_forces_ulaw_8000_witness :
  let host := Toy.host None (inr "unused") Toy.ffmpeg_succeeds in
  forces_8000_mono_mulaw (ffmpegArgs "s16le") = true
  /\ applies_gain_2x (ffmpegArgs "s16le") = false
  /\ applies_gain_2x (ffmpegArgs "wav") = true.
Proof.
  intros host. split; [| split].
  - apply (every_invocation_forces_ulaw_8000 Toy.lib host Toy.raw_stub "s16le"
             (world0 Toy.lib) "ffmpeg" (ffmpegArgs "s16le")).
    vm_compute. left.
  - apply (every_invocation_forces_ulaw_8000 Toy.lib host Toy.raw_stub "s16le"
             (world0 Toy.lib) "ffmpeg" (ffmpegArgs "s16le")).
    vm_compute. left.
  - apply (every_invocation_forces_ulaw_8000 Toy.lib host Toy.riff_stub "wav"
             (world0 Toy.lib) "ffmpeg" (ffmpegArgs "wav")).
    vm_compute. do 2 right. left.
Defined.

(** ** Failures of the external path *)

(** Whatever [convertToUlaw] rejects with is the reason the ffmpeg promise
    was rejected with: the message of line 255 or of line 262, not the one
    of line 272. *)
Lemma rejections_bypass_umbrella lib host audioBuffer sourceFormat (w : World lib) reason :
  (convertToUlaw lib host audioBuffer sourceFormat w).2 = Rejected reason ->
  ffmpeg_settles host audioBuffer sourceFormat = Rejected reason
  /\ under_umbrella reason = false.
Proof.
  rewrite convertToUlaw_paths. intros Hrej.
  assert (Hffmpeg : ffmpeg_settles host audioBuffer sourceFormat = Rejected reason).
  { destruct (String.eqb sourceFormat "wav" || String.eqb sourceFormat "unknown");
      [| exact Hrej].
    destruct (wavefile_path lib audioBuffer sourceFormat w) as [w' [b | e]];
      [discriminate Hrej | exact Hrej]. }
  split; [exact Hffmpeg |].
  unfold ffmpeg_settles, on_exit in Hffmpeg.
  destruct (spawn host "ffmpeg" (ffmpegArgs sourceFormat) audioBuffer)
    as [code chunks stderrOutput | message].
  - destruct (strict_eq code 0); [discriminate Hffmpeg |].
    injection Hffmpeg as <-. reflexivity.
  - injection Hffmpeg as <-. reflexivity.
Qed.

(** A failure of ffmpeg is not swallowed: on a source format that skips the
    in-process path, the run settles as the ffmpeg promise does. *)
Lemma external_path_settles_as_ffmpeg lib host audioBuffer sourceFormat (w : World lib) :
  String.eqb sourceFormat "wav" || String.eqb sourceFormat "unknown" = false ->
  (convertToUlaw lib host audioBuffer sourceFormat w).2
  = ffmpeg_settles host audioBuffer sourceFormat.
Proof. intros Hfmt. rewrite convertToUlaw_paths, Hfmt. reflexivity. Qed.

(** C3, on the code: with an mp3 buffer and an ffmpeg that exits with code 1,
    [convertToUlaw] rejects with the bare message of line 255; the wrapping
    of line 272 is not applied. *)
Theorem ffmpeg_failure_is_not_wrapped :
  let host := Toy.host None (inr "unused") Toy.ffmpeg_fails in
  let run := convertToUlaw Toy.lib host Toy.id3_stub (detectAudioFormat Toy.id3_stub)
                           (world0 Toy.lib) in
  run.2 = Rejected "ffmpeg exited with code 1: pipe:0: Invalid data found when processing input"
  /\ under_umbrella
       "ffmpeg exited with code 1: pipe:0: Invalid data found when processing input" = false.
Proof. split; vm_compute; reflexivity. Qed.

(** ** [sarvamTTS] with [skipConversion] *)

(** C7. When the provider answers with an audio and [options.skipConversion]
    is truthy, [sarvamTTS] resolves with the decoded provider bytes as they
    are; the run calls the provider and nothing else: no [wavefile] call, no
    process. *)
Theorem skipConversion_returns_provider_audio lib host text options (w : World lib)
    response audio more :
  truthy_string (SARVAM_API_KEY host) = true ->
  nodeFetch host (request_of host text options) = inl response ->
  resp_ok response = true ->
  resp_json response = inl (JsonObject (Some (audio :: more))) ->
  audio <> EmptyString ->
  truthy (skipConversion options) = true ->
  sarvamTTS lib host text options w
  = (log [Fetch (request_of host text options)] w, Resolved (base64_decode host audio)).
Proof.
  intros Hkey Hfetch Hok Hjson Haudio Hskip.
  unfold sarvamTTS, sarvamTTS_body, try_catch, emit, await, settled, first_audio, log,
    mbind, mret, M_bind, M_ret.
  cbv zeta. rewrite Hkey. cbn [negb].
  rewrite Hfetch, Hok. cbn [negb]. rewrite Hjson.
  cbn [lookup list_lookup truthy_string].
  replace (String.eqb audio EmptyString) with false
    by (symmetry; apply String.eqb_neq; exact Haudio).
  cbn [negb]. rewrite Hskip. reflexivity.
Qed.

Lemma skipConversion_returns_provider_audio_witness :
  let host := Toy.host (Some "key") (Toy.answer "UklGRgAA") Toy.ffmpeg_fails in
  let options := {| language := None; speaker := None; format := Some "wav";
                    skipConversion := JsBool true |} in
  sarvamTTS Toy.lib host "hello" options (world0 Toy.lib)
  = (log [Fetch (request_of host "hello" options)] (world0 Toy.lib),
     Resolved [0x52; 0x49; 0x46; 0x46; 0; 0]).
Proof.
  intros host options.
  apply (skipConversion_returns_provider_audio Toy.lib host "hello" options (world0 Toy.lib)
           {| resp_ok := true; resp_status := 200; resp_statusText := "OK";
              resp_text := inl EmptyString; resp_json := inl (JsonObject (Some ["UklGRgAA"])) |}
           "UklGRgAA" []).
  - reflexivity.
  - reflexivity.
  - reflexivity.
  - reflexivity.
  - discriminate.
  - reflexivity.
Defined.
